(** * JsonValidate: the loader, the validator and the orchestrator of Module.py

    A shallow embedding of [load_json], [validate_data] and [main].  The three
    functions only sequence calls of collaborators that live outside the
    repository ([open], [json.load], [jsonschema.validate], [logging],
    [print]), so the embedding is a small exception-and-trace monad: a
    computation yields either a value or a raised exception, together with the
    events it performed, in order.  The collaborators whose answer depends on
    the machine (file system, JSON parser, schema validator, standard output)
    are a [World]. *)

From Stdlib Require Import String Ascii List ZArith Bool Lia DecimalString.
Import ListNotations.
Local Open Scope string_scope.
Set Warnings "-register-all".

(** ** Python values *)

(** The objects [json.load] produces.  A float is kept as its binary64 bit
    pattern; a dict keeps its insertion order. *)
Inductive pyval : Type :=
| PyNone
| PyBool (b : bool)
| PyInt (z : Z)
| PyFloat (bits : N)
| PyStr (s : string)
| PyList (items : list pyval)
| PyDict (entries : list (string * pyval)).

(** [x is None] *)
Definition is_None (x : pyval) : bool :=
  match x with
  | PyNone => true
  | _ => false
  end.

(** An element of [ValidationError.path]: a property name or an array index. *)
Inductive PathElem : Type :=
| Key (k : string)
| Index (i : Z).

Definition path_item (p : PathElem) : pyval :=
  match p with
  | Key k => PyStr k
  | Index i => PyInt i
  end.

(** [list(e.path)] *)
Definition list_of_path (path : list PathElem) : pyval :=
  PyList (map path_item path).

(** [str(n)] for an int, as an f-string renders it. *)
Definition str_int (z : Z) : string :=
  NilZero.string_of_int (Z.to_int z).

(** ** Exceptions

    The part of the [Exception] hierarchy the [except] clauses of Module.py
    tell apart.  Every exception carries [text], what [str(e)] gives.
    [OtherException] is any other subclass of [Exception] ([PermissionError],
    [UnicodeDecodeError], [jsonschema.SchemaError], ...).  What is not an
    [Exception] ([KeyboardInterrupt], [SystemExit]) comes from outside the
    calls modelled here and is left out; [logging] is taken not to raise. *)
Inductive PyException : Type :=
| FileNotFoundError (text : string)
| JSONDecodeError (msg : string) (lineno colno : Z) (text : string)
| ValidationError (message : string) (path : list PathElem) (text : string)
| OtherException (text : string).

(** [str(e)] *)
Definition str_exc (e : PyException) : string :=
  match e with
  | FileNotFoundError text => text
  | JSONDecodeError _ _ _ text => text
  | ValidationError _ _ text => text
  | OtherException text => text
  end.

Definition is_ValidationError (e : PyException) : bool :=
  match e with
  | ValidationError _ _ _ => true
  | _ => false
  end.

Inductive Outcome (A : Type) : Type :=
| Return (a : A)
| Raise (e : PyException).
Arguments Return {A} a.
Arguments Raise {A} e.

(** ** Logging and the trace of events *)

Inductive Level : Type := INFO | ERROR.

(** [logging.INFO] is 20 and [logging.ERROR] is 40. *)
Definition levelno (l : Level) : Z :=
  match l with
  | INFO => 20
  | ERROR => 40
  end.

(** A [logging.LogRecord]: the level, the message (format) string and the
    arguments still to be merged into it with [%]. *)
Record LogRecord : Type := mkLog {
  levelname : Level;
  msg : string;
  args : list pyval
}.

(** An open file is modelled by the bytes it holds. *)
Definition File : Type := string.

Inductive Event : Type :=
| EvOpen (filepath : string)
| EvJsonLoad (f : File)
| EvValidate (instance schema : pyval)
| EvLog (r : LogRecord)
| EvPrint (line : string).

Definition Trace : Type := list Event.

(** What the machine answers: [open(filepath, "r", encoding="utf-8")],
    [json.load(f)], [jsonschema.validate(instance=, schema=)] and
    [print(line)], which raises when standard output cannot take the line
    ([UnicodeEncodeError] on a console that has no Cyrillic, [OSError] on a
    closed stream). *)
Record World : Type := mkWorld {
  io_open : string -> Outcome File;
  json_load_impl : File -> Outcome pyval;
  validate_impl : pyval -> pyval -> Outcome unit;
  print_impl : string -> Outcome unit
}.

(** ** The monad *)

Definition Py (A : Type) : Type := (Outcome A * Trace)%type.

Definition ret {A} (a : A) : Py A := (Return a, []).

Definition bind {A B} (m : Py A) (k : A -> Py B) : Py B :=
  match m with
  | (Return a, t) => let (r, t') := k a in (r, (t ++ t')%list)
  | (Raise e, t) => (Raise e, t)
  end.

(** [try: body  except ...: handler]: the handler receives whatever the body
    raised and picks the first matching clause. *)
Definition try_except {A} (body : Py A) (handler : PyException -> Py A) : Py A :=
  match body with
  | (Return a, t) => (Return a, t)
  | (Raise e, t) => let (r, t') := handler e in (r, (t ++ t')%list)
  end.

Definition emit (ev : Event) : Py unit := (Return tt, [ev]).

Declare Scope py_scope.
Delimit Scope py_scope with py.
Notation "x <- c ;; k" := (bind c (fun x => k))
  (at level 61, c at next level, right associativity) : py_scope.
Notation "c ;; k" := (bind c (fun _ => k))
  (at level 61, right associativity) : py_scope.
Notation "'try' b 'except' h" := (try_except b h)
  (at level 62, b at level 61, only parsing) : py_scope.

(** ** Projections of a trace *)

Fixpoint log_of (t : Trace) : list LogRecord :=
  match t with
  | [] => []
  | EvLog r :: t' => r :: log_of t'
  | _ :: t' => log_of t'
  end.

Fixpoint console_of (t : Trace) : list string :=
  match t with
  | [] => []
  | EvPrint line :: t' => line :: console_of t'
  | _ :: t' => console_of t'
  end.

(** The paths handed to [open], in order. *)
Fixpoint opens_of (t : Trace) : list string :=
  match t with
  | [] => []
  | EvOpen p :: t' => p :: opens_of t'
  | _ :: t' => opens_of t'
  end.

(** The files handed to [json.load], in order. *)
Fixpoint parses_of (t : Trace) : list File :=
  match t with
  | [] => []
  | EvJsonLoad f :: t' => f :: parses_of t'
  | _ :: t' => parses_of t'
  end.

(** The calls of [jsonschema.validate], in order. *)
Fixpoint validator_calls (t : Trace) : list (pyval * pyval) :=
  match t with
  | [] => []
  | EvValidate d s :: t' => (d, s) :: validator_calls t'
  | _ :: t' => validator_calls t'
  end.

(** [sub] occurs in [s]. *)
Definition contains (s sub : string) : Prop :=
  exists before after, s = before ++ sub ++ after.

(** ** Module.py *)

(** [logging.basicConfig(filename="validation.log", level=logging.INFO,
    format="%(asctime)s - %(levelname)s - %(message)s")] *)
Definition log_filename : string := "validation.log".
Definition log_level : Level := INFO.
Definition log_format : string := "%(asctime)s - %(levelname)s - %(message)s".

(** A record reaches the file when its level is at least the configured one. *)
Definition isEnabledFor (l : Level) : bool := (levelno log_level <=? levelno l)%Z.

Definition logging_log (l : Level) (m : string) (a : list pyval) : Py unit :=
  if isEnabledFor l then emit (EvLog (mkLog l m a)) else ret tt.

Definition logging_info : string -> list pyval -> Py unit := logging_log INFO.
Definition logging_error : string -> list pyval -> Py unit := logging_log ERROR.

Section Program.

Variable w : World.

Local Open Scope py_scope.

Definition open_file (filepath : string) : Py File :=
  (io_open w filepath, [EvOpen filepath]).

Definition json_load (f : File) : Py pyval :=
  (json_load_impl w f, [EvJsonLoad f]).

Definition validate (instance schema : pyval) : Py unit :=
  (validate_impl w instance schema, [EvValidate instance schema]).

(** [EvPrint] is the line handed to [print], written or not. *)
Definition print (line : string) : Py unit :=
  (print_impl w line, [EvPrint line]).

Definition load_json (filepath : string) : Py pyval :=
  try
    (f <- open_file filepath ;;
     data <- json_load f ;;
     logging_info ("Файл успешно прочитан: " ++ filepath) [] ;;
     ret data)
  except (fun e =>
    match e with
    | FileNotFoundError _ =>
        logging_error ("Файл не найден: " ++ filepath) [] ;;
        ret PyNone
    | JSONDecodeError emsg lineno colno _ =>
        logging_error
          ("Ошибка разбора JSON в файле " ++ filepath ++ ": " ++
           emsg ++ " (строка " ++ str_int lineno ++
           ", колонка " ++ str_int colno ++ ")") [] ;;
        ret PyNone
    | _ =>
        logging_error
          ("Неизвестная ошибка при чтении файла " ++ filepath ++ ": " ++
           str_exc e) [] ;;
        ret PyNone
    end).

Definition validate_data (data schema : pyval) : Py bool :=
  try
    (validate data schema ;;
     logging_info "Валидация прошла успешно" [] ;;
     ret true)
  except (fun e =>
    match e with
    | ValidationError message path _ =>
        logging_error "Ошибка валидации JSON: %s | Путь в данных: %s"
          [PyStr message; list_of_path path] ;;
        ret false
    | _ =>
        logging_error
          ("Неизвестная ошибка при валидации JSON: " ++ str_exc e) [] ;;
        ret false
    end).

Definition main : Py unit :=
  data <- load_json "data.json" ;;
  schema <- load_json "schema.json" ;;
  if is_None data || is_None schema then
    logging_error
      "Данные или схема не были загружены, валидация невозможна" []
  else
    is_valid <- validate_data data schema ;;
    if is_valid : bool then
      print "Данные валидны по схеме"
    else
      print "Данные НЕ соответствуют схеме, подробности см. в лог-файле".

(** [if __name__ == "__main__": main()]: the interpreter leaves with status 0
    when [main] returns and with status 1 when an exception escapes it. *)
Definition run_script : Z * Trace :=
  match main with
  | (Return _, t) => (0%Z, t)
  | (Raise _, t) => (1%Z, t)
  end.

End Program.

(** The outcome of the two calls under [with open(...)]: the parsed document,
    or what [open] or [json.load] raised. *)
Definition read_json (w : World) (filepath : string) : Outcome pyval :=
  match io_open w filepath with
  | Return f => json_load_impl w f
  | Raise e => Raise e
  end.

(** The records only [validate_data] writes. *)
Definition validator_record (r : LogRecord) : bool :=
  (msg r =? "Валидация прошла успешно") ||
  (msg r =? "Ошибка валидации JSON: %s | Путь в данных: %s") ||
  prefix "Неизвестная ошибка при валидации JSON: " (msg r).

(** The three ways a call of [load_json] can go: both calls answer, [open]
    raises, or [json.load] raises. *)
Inductive LoadRun (w : World) (p : string) : Py pyval -> Prop :=
| LoadRead (f : File) (v : pyval) :
    io_open w p = Return f ->
    json_load_impl w f = Return v ->
    LoadRun w p
      (Return v,
       [EvOpen p; EvJsonLoad f;
        EvLog (mkLog INFO ("Файл успешно прочитан: " ++ p) [])])
| LoadOpenFailed (e : PyException) (m : string) :
    io_open w p = Raise e ->
    validator_record (mkLog ERROR m []) = false ->
    LoadRun w p (Return PyNone, [EvOpen p; EvLog (mkLog ERROR m [])])
| LoadParseFailed (f : File) (e : PyException) (m : string) :
    io_open w p = Return f ->
    json_load_impl w f = Raise e ->
    validator_record (mkLog ERROR m []) = false ->
    LoadRun w p
      (Return PyNone, [EvOpen p; EvJsonLoad f; EvLog (mkLog ERROR m [])]).

(** The record [main] writes when it gives up. *)
Definition not_loaded_record : LogRecord :=
  mkLog ERROR "Данные или схема не были загружены, валидация невозможна" [].

(** The line [main] prints for a verdict of [validate_data]. *)
Definition verdict_line (is_valid : bool) : string :=
  if is_valid then "Данные валидны по схеме"
  else "Данные НЕ соответствуют схеме, подробности см. в лог-файле".

(** [isinstance(e, FileNotFoundError)] and [isinstance(e, json.JSONDecodeError)] *)
Definition is_FileNotFoundError (e : PyException) : bool :=
  match e with
  | FileNotFoundError _ => true
  | _ => false
  end.

Definition is_JSONDecodeError (e : PyException) : bool :=
  match e with
  | JSONDecodeError _ _ _ _ => true
  | _ => false
  end.

(** The record is of level ERROR. *)
Definition is_ERROR (r : LogRecord) : bool :=
  match levelname r with
  | ERROR => true
  | INFO => false
  end.

(** [jsonschema.validate] returned, it did not raise. *)
Definition accepted (w : World) (data schema : pyval) : bool :=
  match validate_impl w data schema with
  | Return _ => true
  | Raise _ => false
  end.

(** ** Sample machines *)

Module Fixtures.

Fixpoint lookup {A} (k : string) (table : list (string * A)) : option A :=
  match table with
  | [] => None
  | (k', a) :: rest => if k =? k' then Some a else lookup k rest
  end.

(** A directory: a path that is not listed does not exist. *)
Definition disk_open (disk : list (string * Outcome File)) (p : string) : Outcome File :=
  match lookup p disk with
  | Some r => r
  | None => Raise (FileNotFoundError
                     ("[Errno 2] No such file or directory: '" ++ p ++ "'"))
  end.

(** A parser that knows the listed documents only. *)
Definition doc_parse (docs : list (File * pyval)) (f : File) : Outcome pyval :=
  match lookup f docs with
  | Some v => Return v
  | None => Raise (JSONDecodeError "Expecting value" 1 1
                     "Expecting value: line 1 column 1 (char 0)")
  end.

(** A JSON string literal: the text between two quotation marks. *)
Definition q (s : string) : string :=
  let dq := String (ascii_of_nat 34) EmptyString in dq ++ s ++ dq.

Definition items_text : File :=
  "{" ++ q "items" ++ ": [{" ++ q "id" ++ ": 1}]}".
Definition items_doc : pyval :=
  PyDict [("items", PyList [PyDict [("id", PyInt 1)]])].

Definition items_schema_text : File :=
  "{" ++ q "properties" ++ ": {" ++ q "items" ++ ": {" ++ q "items" ++
  ": {" ++ q "required" ++ ": [" ++ q "name" ++ "]}}}}".
Definition items_schema : pyval :=
  PyDict [("properties",
           PyDict [("items",
                    PyDict [("items", PyDict [("required", PyList [PyStr "name"])])])])].

Definition bad_schema_text : File :=
  "{" ++ q "type" ++ ": " ++ q "not-a-real-type" ++ "}".
Definition bad_schema : pyval := PyDict [("type", PyStr "not-a-real-type")].

Definition docs : list (File * pyval) :=
  [ ("null", PyNone);
    ("{}", PyDict []);
    (items_text, items_doc);
    (items_schema_text, items_schema);
    (bad_schema_text, bad_schema) ].

(** A validator that gives the same verdict whatever it is asked. *)
Definition machine (disk : list (string * Outcome File)) (verdict : Outcome unit) : World :=
  mkWorld (disk_open disk) (doc_parse docs) (fun _ _ => verdict)
          (fun _ => Return tt).

(** Both files present, the data conforming. *)
Definition valid_world : World :=
  machine [("data.json", Return "{}"); ("schema.json", Return "{}")] (Return tt).

(** [items[0]] lacks the required [name]. *)
Definition missing_name : PyException :=
  ValidationError "'name' is a required property" [Key "items"; Index 0]
    "'name' is a required property".
Definition invalid_world : World :=
  machine [("data.json", Return items_text);
           ("schema.json", Return items_schema_text)] (Raise missing_name).

(** The schema is no schema: [jsonschema.exceptions.SchemaError]. *)
Definition schema_error : PyException :=
  OtherException "'not-a-real-type' is not valid under any of the given schemas".
Definition bad_schema_world : World :=
  machine [("data.json", Return "{}");
           ("schema.json", Return bad_schema_text)] (Raise schema_error).

(** No data file in the directory. *)
Definition no_data_world : World :=
  machine [("schema.json", Return "{}")] (Return tt).

(** The data file ends an array with a comma. *)
Definition trailing_comma_world : World :=
  mkWorld (disk_open [("data.json", Return "[1,]"); ("schema.json", Return "{}")])
          (fun f => if f =? "[1,]"
                    then Raise (JSONDecodeError "Expecting value" 1 4
                                  "Expecting value: line 1 column 4 (char 3)")
                    else doc_parse docs f)
          (fun _ _ => Return tt)
          (fun _ => Return tt).

(** The data file is a directory, the schema file is not readable. *)
Definition unreadable_world : World :=
  machine [("data.json",
            Raise (OtherException "[Errno 21] Is a directory: 'data.json'"));
           ("schema.json",
            Raise (OtherException "[Errno 13] Permission denied: 'schema.json'"))]
          (Return tt).

(** The data file holds the document [null]; the empty schema accepts it. *)
Definition null_data_world : World :=
  machine [("data.json", Return "null"); ("schema.json", Return "{}")] (Return tt).

(** The schema file holds the document [null]. *)
Definition null_schema_world : World :=
  machine [("data.json", Return "{}"); ("schema.json", Return "null")]
          (Raise (OtherException "None is not of type 'object', 'boolean'")).

(** Both files present, the data conforming, and a standard output in a
    codec without Cyrillic: [print] raises [UnicodeEncodeError]. *)
Definition encode_error : PyException :=
  OtherException
    "'ascii' codec can't encode characters in position 0-5: ordinal not in range(128)".
Definition ascii_console_world : World :=
  mkWorld (disk_open [("data.json", Return "{}"); ("schema.json", Return "{}")])
          (doc_parse docs)
          (fun _ _ => Return tt)
          (fun _ => Raise encode_error).

End Fixtures.

(** ** Properties *)

Lemma append_assoc (a b c : string) : (a ++ b) ++ c = a ++ b ++ c.
Proof.
  induction a as [|ch a IH]; simpl.
  - reflexivity.
  - now rewrite IH.
Qed.

Lemma contains_here (a sub b : string) : contains (a ++ sub ++ b) sub.
Proof. now exists a, b. Qed.

Lemma contains_tail (a s sub : string) : contains s sub -> contains (a ++ s) sub.
Proof.
  intros (x & y & ->). exists (a ++ x), y. now rewrite append_assoc.
Qed.

Lemma contains_end (a sub : string) : contains (a ++ sub) sub.
Proof.
  exists a, "". f_equal. induction sub as [|ch s IH]; simpl; congruence.
Qed.

Create HintDb contains.
#[local] Hint Resolve contains_here contains_tail contains_end : contains.


Ltac py_unfold :=
  unfold load_json, validate_data, open_file, json_load, validate,
    try_except, bind, logging_info, logging_error, logging_log, print, emit, ret.

Lemma load_json_runs (w : World) (p : string) : LoadRun w p (load_json w p).
Proof.
  py_unfold.
  destruct (io_open w p) as [f|e] eqn:Hopen.
  - destruct (json_load_impl w f) as [v|e] eqn:Hparse.
    + now apply LoadRead.
    + destruct e; cbn; now eapply LoadParseFailed; eauto.
  - destruct e; cbn; now eapply LoadOpenFailed; eauto.
Qed.

Lemma load_json_returns (w : World) (p : string) :
  exists v, fst (load_json w p) = Return v.
Proof. destruct (load_json_runs w p); cbn; eauto. Qed.

Lemma validate_data_returns (w : World) (data schema : pyval) :
  exists b, fst (validate_data w data schema) = Return b.
Proof.
  py_unfold. destruct (validate_impl w data schema) as [[]|e]; cbn; eauto.
  destruct e; cbn; eauto.
Qed.

Lemma load_json_read (w : World) (p : string) (v : pyval) :
  read_json w p = Return v ->
  fst (load_json w p) = Return v /\
  log_of (snd (load_json w p)) =
    [mkLog INFO ("Файл успешно прочитан: " ++ p) []].
Proof.
  unfold read_json.
  destruct (load_json_runs w p) as [f v' Ho Hp | e m Ho _ | f e m Ho Hp _];
    rewrite Ho; try rewrite Hp; intros H; try discriminate H.
  injection H as <-. now split.
Qed.

Lemma load_json_failed (w : World) (p : string) (e : PyException) :
  read_json w p = Raise e ->
  fst (load_json w p) = Return PyNone /\
  exists m, log_of (snd (load_json w p)) = [mkLog ERROR m []].
Proof.
  unfold read_json.
  destruct (load_json_runs w p) as [f v' Ho Hp | e' m Ho _ | f e' m Ho Hp _];
    rewrite Ho; try rewrite Hp; intros H; try discriminate H;
    cbn; eauto.
Qed.

Lemma validate_data_invalid (w : World) (data schema : pyval)
    (message : string) (path : list PathElem) (text : string) :
  validate_impl w data schema = Raise (ValidationError message path text) ->
  validate_data w data schema =
    (Return false,
     [EvValidate data schema;
      EvLog (mkLog ERROR "Ошибка валидации JSON: %s | Путь в данных: %s"
               [PyStr message; list_of_path path])]).
Proof. intros H. py_unfold. now rewrite H. Qed.

(** *** The loader *)

(** C3: whatever the path, [load_json] returns the parsed value when [open]
    and [json.load] both answer and [None] when either raises (not found,
    parse error or anything else); the call writes exactly one log record, an
    INFO record naming the path on success and an ERROR record on failure;
    and it calls [open] once, on that path, and [json.load] at most once. *)
Theorem load_json_value_or_None (w : World) (p : string) :
  (forall v, read_json w p = Return v ->
     fst (load_json w p) = Return v /\
     log_of (snd (load_json w p)) =
       [mkLog INFO ("Файл успешно прочитан: " ++ p) []]) /\
  (forall e, read_json w p = Raise e ->
     fst (load_json w p) = Return PyNone /\
     exists m, log_of (snd (load_json w p)) = [mkLog ERROR m []]) /\
  opens_of (snd (load_json w p)) = [p] /\
  (length (parses_of (snd (load_json w p))) <= 1)%nat.
Proof.
  split; [|split; [|split]].
  - apply load_json_read.
  - apply load_json_failed.
  - destruct (load_json_runs w p); reflexivity.
  - destruct (load_json_runs w p); cbn; lia.
Qed.

Lemma load_json_value_or_None_witness :
  (fst (load_json Fixtures.invalid_world "data.json") = Return Fixtures.items_doc /\
   log_of (snd (load_json Fixtures.invalid_world "data.json")) =
     [mkLog INFO "Файл успешно прочитан: data.json" []]) /\
  (fst (load_json Fixtures.no_data_world "data.json") = Return PyNone /\
   exists m, log_of (snd (load_json Fixtures.no_data_world "data.json")) =
     [mkLog ERROR m []]).
Proof.
  split.
  - apply (proj1 (load_json_value_or_None Fixtures.invalid_world "data.json")).
    vm_compute. reflexivity.
  - apply (proj1 (proj2 (load_json_value_or_None Fixtures.no_data_world "data.json"))
             (FileNotFoundError "[Errno 2] No such file or directory: 'data.json'")).
    vm_compute. reflexivity.
Defined.

(** C7: when the file opens and [json.load] raises [JSONDecodeError],
    [load_json] returns [None] and its one log record is an ERROR record
    whose text holds the path, the parser's message and the line and the
    column the parser reported, in decimal. *)
Theorem load_json_parse_error (w : World) (p : string) (f : File)
    (emsg : string) (lineno colno : Z) (text : string) :
  io_open w p = Return f ->
  json_load_impl w f = Raise (JSONDecodeError emsg lineno colno text) ->
  exists m,
    load_json w p =
      (Return PyNone, [EvOpen p; EvJsonLoad f; EvLog (mkLog ERROR m [])]) /\
    m = "Ошибка разбора JSON в файле " ++ p ++ ": " ++ emsg ++
        " (строка " ++ str_int lineno ++ ", колонка " ++ str_int colno ++ ")" /\
    contains m p /\ contains m emsg /\
    contains m ("строка " ++ str_int lineno) /\
    contains m ("колонка " ++ str_int colno).
Proof.
  intros Ho Hp. eexists. split; [|split; [reflexivity|]].
  - py_unfold. rewrite Ho, Hp. reflexivity.
  - repeat split.
    + apply contains_here.
    + do 2 apply contains_tail. apply contains_here.
    + do 4 apply contains_tail.
      now exists " (", (", колонка " ++ str_int colno ++ ")").
    + do 6 apply contains_tail.
      now exists ", ", ")".
Qed.

Lemma load_json_parse_error_witness :
  exists m,
    load_json Fixtures.trailing_comma_world "data.json" =
      (Return PyNone,
       [EvOpen "data.json"; EvJsonLoad "[1,]"; EvLog (mkLog ERROR m [])]) /\
    m = "Ошибка разбора JSON в файле data.json: Expecting value (строка 1, колонка 4)".
Proof.
  destruct (load_json_parse_error Fixtures.trailing_comma_world "data.json" "[1,]"
              "Expecting value" 1 4 "Expecting value: line 1 column 4 (char 3)")
    as (m & Hrun & Hm & _).
  - reflexivity.
  - reflexivity.
  - exists m. split; [exact Hrun | exact Hm].
Defined.

(** *** The validator *)

(** C1: whatever the data and the schema, when [jsonschema.validate] returns,
    [validate_data] returns [True] and writes exactly one INFO record; when it
    raises [ValidationError], [validate_data] returns [False] and writes
    exactly one ERROR record whose arguments are the message of that error and
    its path as a list of keys and indices, in order. *)
Theorem validate_data_verdict (w : World) (data schema : pyval) :
  (validate_impl w data schema = Return tt ->
     validate_data w data schema =
       (Return true,
        [EvValidate data schema;
         EvLog (mkLog INFO "Валидация прошла успешно" [])])) /\
  (forall message path text,
     validate_impl w data schema = Raise (ValidationError message path text) ->
     validate_data w data schema =
       (Return false,
        [EvValidate data schema;
         EvLog (mkLog ERROR "Ошибка валидации JSON: %s | Путь в данных: %s"
                  [PyStr message; list_of_path path])])).
Proof.
  split.
  - intros H. py_unfold. now rewrite H.
  - apply validate_data_invalid.
Qed.

Lemma validate_data_verdict_witness :
  validate_data Fixtures.valid_world (PyDict []) (PyDict []) =
    (Return true,
     [EvValidate (PyDict []) (PyDict []);
      EvLog (mkLog INFO "Валидация прошла успешно" [])]) /\
  validate_data Fixtures.invalid_world Fixtures.items_doc Fixtures.items_schema =
    (Return false,
     [EvValidate Fixtures.items_doc Fixtures.items_schema;
      EvLog (mkLog ERROR "Ошибка валидации JSON: %s | Путь в данных: %s"
               [PyStr "'name' is a required property";
                PyList [PyStr "items"; PyInt 0]])]).
Proof.
  split.
  - apply (proj1 (validate_data_verdict Fixtures.valid_world (PyDict []) (PyDict []))).
    reflexivity.
  - apply (proj2 (validate_data_verdict Fixtures.invalid_world
                    Fixtures.items_doc Fixtures.items_schema)
             "'name' is a required property" [Key "items"; Index 0]
             "'name' is a required property").
    reflexivity.
Defined.

(** C4: when [jsonschema.validate] raises an exception that is not a
    [ValidationError], nothing escapes [validate_data]: it writes one ERROR
    record holding the text of the exception and returns [False], the value
    it also returns for a [ValidationError]. *)
Theorem validate_data_other_exception (w : World) (data schema : pyval)
    (e : PyException) :
  validate_impl w data schema = Raise e ->
  is_ValidationError e = false ->
  validate_data w data schema =
    (Return false,
     [EvValidate data schema;
      EvLog (mkLog ERROR
               ("Неизвестная ошибка при валидации JSON: " ++ str_exc e) [])]) /\
  contains ("Неизвестная ошибка при валидации JSON: " ++ str_exc e) (str_exc e) /\
  (forall w' data' schema' message path text,
     validate_impl w' data' schema' = Raise (ValidationError message path text) ->
     fst (validate_data w' data' schema') = fst (validate_data w data schema)).
Proof.
  intros H Hcls.
  assert (Hrun : validate_data w data schema =
    (Return false,
     [EvValidate data schema;
      EvLog (mkLog ERROR
               ("Неизвестная ошибка при валидации JSON: " ++ str_exc e) [])])).
  { py_unfold. rewrite H. destruct e; try discriminate Hcls; reflexivity. }
  split; [exact Hrun|]. split; [apply contains_end|].
  intros w' data' schema' message path text H'.
  rewrite Hrun.
  now rewrite (validate_data_invalid w' data' schema' _ _ _ H').
Qed.

Lemma validate_data_other_exception_witness :
  validate_data Fixtures.bad_schema_world (PyDict []) Fixtures.bad_schema =
    (Return false,
     [EvValidate (PyDict []) Fixtures.bad_schema;
      EvLog (mkLog ERROR
               ("Неизвестная ошибка при валидации JSON: " ++
                "'not-a-real-type' is not valid under any of the given schemas")
               [])]).
Proof.
  apply (validate_data_other_exception Fixtures.bad_schema_world (PyDict [])
           Fixtures.bad_schema Fixtures.schema_error); reflexivity.
Defined.

(** *** The orchestrator *)

Lemma load_json_pair (w : World) (p : string) :
  exists v t, load_json w p = (Return v, t).
Proof. destruct (load_json_runs w p); eauto. Qed.

Lemma validate_data_pair (w : World) (data schema : pyval) :
  exists b r,
    validate_data w data schema = (Return b, [EvValidate data schema; EvLog r]).
Proof.
  py_unfold. destruct (validate_impl w data schema) as [[]|e]; cbn; eauto.
  destruct e; cbn; eauto.
Qed.

Lemma log_of_app t1 t2 : log_of (t1 ++ t2)%list = (log_of t1 ++ log_of t2)%list.
Proof.
  induction t1 as [|[] t1 IH]; cbn; congruence.
Qed.

Lemma console_of_app t1 t2 :
  console_of (t1 ++ t2)%list = (console_of t1 ++ console_of t2)%list.
Proof.
  induction t1 as [|[] t1 IH]; cbn; congruence.
Qed.

Lemma opens_of_app t1 t2 :
  opens_of (t1 ++ t2)%list = (opens_of t1 ++ opens_of t2)%list.
Proof.
  induction t1 as [|[] t1 IH]; cbn; congruence.
Qed.

Lemma validator_calls_app t1 t2 :
  validator_calls (t1 ++ t2)%list = (validator_calls t1 ++ validator_calls t2)%list.
Proof.
  induction t1 as [|[] t1 IH]; cbn; congruence.
Qed.

(** What a call of [load_json] leaves in the trace. *)
Lemma load_json_trace (w : World) (p : string) :
  console_of (snd (load_json w p)) = [] /\
  validator_calls (snd (load_json w p)) = [] /\
  opens_of (snd (load_json w p)) = [p] /\
  existsb validator_record (log_of (snd (load_json w p))) = false.
Proof.
  destruct (load_json_runs w p) as [f v _ _ | e m _ Hm | f e m _ _ Hm]; cbn;
    repeat split; try reflexivity;
    cbn in Hm; now rewrite Hm.
Qed.

(** [main], once the two loads have run. *)
Lemma main_run (w : World) (d s : pyval) (t1 t2 : Trace) :
  load_json w "data.json" = (Return d, t1) ->
  load_json w "schema.json" = (Return s, t2) ->
  main w =
    if is_None d || is_None s then
      (Return tt,
       (t1 ++ t2 ++
        [EvLog (mkLog ERROR
           "Данные или схема не были загружены, валидация невозможна" [])])%list)
    else
      match validate_data w d s with
      | (Return b, t3) =>
          (print_impl w (verdict_line b),
           (t1 ++ t2 ++ t3 ++ [EvPrint (verdict_line b)])%list)
      | (Raise e, t3) => (Raise e, (t1 ++ t2 ++ t3)%list)
      end.
Proof.
  intros H1 H2. unfold main, bind. rewrite H1, H2.
  destruct (is_None d || is_None s); [reflexivity|].
  destruct (validate_data w d s) as [[[]|e] t3]; reflexivity.
Qed.

(** C2: when the load of the data or the load of the schema gives [None],
    [main] writes the ERROR record saying that data or schema were not loaded
    right after the two loads and returns; nothing is printed, the validator
    is never called and no record of the validator is in the log. *)
Theorem main_stops_when_not_loaded (w : World) :
  fst (load_json w "data.json") = Return PyNone \/
  fst (load_json w "schema.json") = Return PyNone ->
  main w =
    (Return tt,
     (snd (load_json w "data.json") ++ snd (load_json w "schema.json") ++
      [EvLog not_loaded_record])%list) /\
  console_of (snd (main w)) = [] /\
  validator_calls (snd (main w)) = [] /\
  existsb validator_record (log_of (snd (main w))) = false.
Proof.
  intros Habsent.
  destruct (load_json_pair w "data.json") as (d & t1 & H1).
  destruct (load_json_pair w "schema.json") as (s & t2 & H2).
  destruct (load_json_trace w "data.json") as (Hc1 & Hv1 & _ & Hl1).
  destruct (load_json_trace w "schema.json") as (Hc2 & Hv2 & _ & Hl2).
  assert (Hmain : main w = (Return tt, (t1 ++ t2 ++ [EvLog not_loaded_record])%list)).
  { rewrite (main_run w d s t1 t2 H1 H2).
    rewrite H1, H2 in Habsent. cbn in Habsent.
    destruct Habsent as [[= ->] | [= ->]]; [reflexivity|].
    now rewrite orb_true_r. }
  rewrite Hmain. rewrite H1 in *. rewrite H2 in *. cbn [fst snd] in *.
  split; [reflexivity|].
  rewrite !console_of_app, !validator_calls_app, !log_of_app, !existsb_app.
  rewrite Hc1, Hc2, Hv1, Hv2, Hl1, Hl2. repeat split.
Qed.

Lemma main_stops_when_not_loaded_witness :
  main Fixtures.no_data_world =
    (Return tt,
     [EvOpen "data.json";
      EvLog (mkLog ERROR "Файл не найден: data.json" []);
      EvOpen "schema.json"; EvJsonLoad "{}";
      EvLog (mkLog INFO "Файл успешно прочитан: schema.json" []);
      EvLog not_loaded_record]) /\
  console_of (snd (main Fixtures.no_data_world)) = [].
Proof.
  destruct (main_stops_when_not_loaded Fixtures.no_data_world) as (Hrun & Hout & _).
  - left. reflexivity.
  - split; [exact Hrun | exact Hout].
Defined.




(** When neither load gives [None], [main] prints exactly one line, the one
    for the verdict of [validate_data]. *)
Lemma main_prints_verdict (w : World) (d s : pyval) (b : bool) :
  fst (load_json w "data.json") = Return d ->
  fst (load_json w "schema.json") = Return s ->
  is_None d = false ->
  is_None s = false ->
  fst (validate_data w d s) = Return b ->
  console_of (snd (main w)) = [verdict_line b].
Proof.
  intros Hd Hs Nd Ns Hb.
  destruct (load_json_pair w "data.json") as (d' & t1 & H1).
  destruct (load_json_pair w "schema.json") as (s' & t2 & H2).
  destruct (load_json_trace w "data.json") as (Hc1 & _).
  destruct (load_json_trace w "schema.json") as (Hc2 & _).
  rewrite H1 in Hd, Hc1. rewrite H2 in Hs, Hc2. cbn in Hd, Hs, Hc1, Hc2.
  injection Hd as ->. injection Hs as ->.
  rewrite (main_run w d s t1 t2 H1 H2), Nd, Ns. cbn [orb].
  destruct (validate_data_pair w d s) as (b' & r & Hv).
  rewrite Hv in Hb |- *. cbn in Hb. injection Hb as ->.
  cbn [snd]. rewrite !console_of_app, Hc1, Hc2. reflexivity.
Qed.

(** C6: the data file holds the document [null] and the schema file the
    empty schema: both loads succeed, each with its INFO record, and yet
    [main] prints no line at all. *)
Theorem main_null_data_prints_nothing :
  read_json Fixtures.null_data_world "data.json" = Return PyNone /\
  read_json Fixtures.null_data_world "schema.json" = Return (PyDict []) /\
  log_of (snd (main Fixtures.null_data_world)) =
    [mkLog INFO "Файл успешно прочитан: data.json" [];
     mkLog INFO "Файл успешно прочитан: schema.json" [];
     not_loaded_record] /\
  console_of (snd (main Fixtures.null_data_world)) = [].
Proof. repeat split. Qed.

(** C8: [main] has no parameter, and every run starts with the two loads,
    of "data.json" and then of "schema.json", whatever the first load gave;
    what follows them opens no file, so exactly these two paths are opened,
    in this order. *)
Theorem main_loads_data_then_schema (w : World) :
  exists rest,
    snd (main w) =
      (snd (load_json w "data.json") ++ snd (load_json w "schema.json") ++
       rest)%list /\
    opens_of rest = [] /\ parses_of rest = [] /\
    opens_of (snd (main w)) = ["data.json"; "schema.json"].
Proof.
  destruct (load_json_pair w "data.json") as (d & t1 & H1).
  destruct (load_json_pair w "schema.json") as (s & t2 & H2).
  destruct (load_json_trace w "data.json") as (_ & _ & Ho1 & _).
  destruct (load_json_trace w "schema.json") as (_ & _ & Ho2 & _).
  rewrite (main_run w d s t1 t2 H1 H2).
  rewrite H1 in *. rewrite H2 in *. cbn [snd] in *.
  destruct (is_None d || is_None s).
  - eexists. split; [reflexivity|]. cbn [snd].
    rewrite !opens_of_app, Ho1, Ho2. repeat split.
  - destruct (validate_data_pair w d s) as (b & r & ->).
    eexists. split; [reflexivity|]. cbn [snd].
    rewrite !opens_of_app, Ho1, Ho2. repeat split.
Qed.

(** C10: when both files open and parse, and one of the two documents is
    [null] ([json.load] gives [None]), each load writes its INFO record and
    returns what was parsed, which for [null] is the very value a failed load
    returns; [main] then writes the record that data or schema were not
    loaded, prints nothing and never calls the validator. *)
Theorem null_document_read_as_not_loaded (w : World) (d s : pyval) :
  read_json w "data.json" = Return d ->
  read_json w "schema.json" = Return s ->
  d = PyNone \/ s = PyNone ->
  (fst (load_json w "data.json") = Return d /\
   fst (load_json w "schema.json") = Return s) /\
  log_of (snd (main w)) =
    [mkLog INFO "Файл успешно прочитан: data.json" [];
     mkLog INFO "Файл успешно прочитан: schema.json" [];
     not_loaded_record] /\
  validator_calls (snd (main w)) = [] /\
  console_of (snd (main w)) = [] /\
  (forall w' p e, read_json w' p = Raise e ->
     fst (load_json w' p) = Return PyNone).
Proof.
  intros Hd Hs Hnull.
  destruct (load_json_read w _ _ Hd) as (Hr1 & Hl1).
  destruct (load_json_read w _ _ Hs) as (Hr2 & Hl2).
  destruct (load_json_pair w "data.json") as (d' & t1 & H1).
  destruct (load_json_pair w "schema.json") as (s' & t2 & H2).
  destruct (load_json_trace w "data.json") as (Hc1 & Hv1 & _).
  destruct (load_json_trace w "schema.json") as (Hc2 & Hv2 & _).
  split; [now split|].
  rewrite (main_run w d' s' t1 t2 H1 H2).
  rewrite H1 in *. rewrite H2 in *. cbn [fst snd] in *.
  injection Hr1 as ->. injection Hr2 as ->.
  assert (Hnone : is_None d || is_None s = true).
  { destruct Hnull as [-> | ->]; [reflexivity | apply orb_true_r]. }
  rewrite Hnone. cbn [snd].
  rewrite !log_of_app, !validator_calls_app, !console_of_app.
  rewrite Hl1, Hl2, Hc1, Hc2, Hv1, Hv2.
  repeat split. intros w' p e He. apply (load_json_failed w' p e He).
Qed.

Lemma null_document_read_as_not_loaded_witness :
  (fst (load_json Fixtures.null_schema_world "data.json") = Return (PyDict []) /\
   fst (load_json Fixtures.null_schema_world "schema.json") = Return PyNone) /\
  log_of (snd (main Fixtures.null_schema_world)) =
    [mkLog INFO "Файл успешно прочитан: data.json" [];
     mkLog INFO "Файл успешно прочитан: schema.json" [];
     not_loaded_record] /\
  validator_calls (snd (main Fixtures.null_schema_world)) = [] /\
  console_of (snd (main Fixtures.null_schema_world)) = [].
Proof.
  destruct (null_document_read_as_not_loaded Fixtures.null_schema_world
              (PyDict []) PyNone) as (Hload & Hlog & Hval & Hout & _).
  - reflexivity.
  - reflexivity.
  - right. reflexivity.
  - repeat split; assumption || apply Hload.
Defined.

(** *** Runs on the sample machines *)

Example str_int_samples :
  str_int 1 = "1" /\ str_int 40 = "40" /\ str_int 0 = "0" /\ str_int (-3) = "-3".
Proof. repeat split. Qed.

Example run_valid :
  run_script Fixtures.valid_world =
    (0%Z,
     [EvOpen "data.json"; EvJsonLoad "{}";
      EvLog (mkLog INFO "Файл успешно прочитан: data.json" []);
      EvOpen "schema.json"; EvJsonLoad "{}";
      EvLog (mkLog INFO "Файл успешно прочитан: schema.json" []);
      EvValidate (PyDict []) (PyDict []);
      EvLog (mkLog INFO "Валидация прошла успешно" []);
      EvPrint "Данные валидны по схеме"]).
Proof. reflexivity. Qed.

Example run_invalid :
  log_of (snd (main Fixtures.invalid_world)) =
    [mkLog INFO "Файл успешно прочитан: data.json" [];
     mkLog INFO "Файл успешно прочитан: schema.json" [];
     mkLog ERROR "Ошибка валидации JSON: %s | Путь в данных: %s"
       [PyStr "'name' is a required property"; PyList [PyStr "items"; PyInt 0]]] /\
  console_of (snd (main Fixtures.invalid_world)) =
    ["Данные НЕ соответствуют схеме, подробности см. в лог-файле"].
Proof. split; reflexivity. Qed.

Example run_bad_schema :
  console_of (snd (main Fixtures.bad_schema_world)) =
    ["Данные НЕ соответствуют схеме, подробности см. в лог-файле"] /\
  fst (run_script Fixtures.bad_schema_world) = 0%Z.
Proof. split; reflexivity. Qed.

Example run_unreadable :
  run_script Fixtures.unreadable_world =
    (0%Z,
     [EvOpen "data.json";
      EvLog (mkLog ERROR
        "Неизвестная ошибка при чтении файла data.json: [Errno 21] Is a directory: 'data.json'" []);
      EvOpen "schema.json";
      EvLog (mkLog ERROR
        "Неизвестная ошибка при чтении файла schema.json: [Errno 13] Permission denied: 'schema.json'" []);
      EvLog not_loaded_record]).
Proof. reflexivity. Qed.

Example run_trailing_comma :
  log_of (snd (main Fixtures.trailing_comma_world)) =
    [mkLog ERROR
       "Ошибка разбора JSON в файле data.json: Expecting value (строка 1, колонка 4)" [];
     mkLog INFO "Файл успешно прочитан: schema.json" [];
     not_loaded_record].
Proof. reflexivity. Qed.

Example run_valid_prints_verdict :
  console_of (snd (main Fixtures.valid_world)) = [verdict_line true].
Proof.
  apply (main_prints_verdict Fixtures.valid_world (PyDict []) (PyDict []) true);
    reflexivity.
Qed.

(** ** Further properties of the three functions *)

Lemma parses_of_app t1 t2 :
  parses_of (t1 ++ t2)%list = (parses_of t1 ++ parses_of t2)%list.
Proof.
  induction t1 as [|[] t1 IH]; cbn; congruence.
Qed.

Lemma prefix_app (a b : string) : prefix a (a ++ b) = true.
Proof.
  induction a as [|ch a IH]; simpl.
  - now destruct b.
  - destruct (ascii_dec ch ch) as [_|Hne]; [exact IH | now elim Hne].
Qed.

(** The run of [validate_data], by whether the validator accepted. *)
Lemma validate_data_shape (w : World) (data schema : pyval) :
  exists r,
    validate_data w data schema =
      (Return (accepted w data schema), [EvValidate data schema; EvLog r]) /\
    validator_record r = true /\
    is_ERROR r = negb (accepted w data schema).
Proof.
  unfold accepted. py_unfold.
  destruct (validate_impl w data schema) as [[]|e].
  - eexists. split; [reflexivity|]. split; reflexivity.
  - destruct e; eexists; (split; [reflexivity|]); (split; [|reflexivity]);
      try reflexivity;
      unfold validator_record; cbn [msg]; rewrite prefix_app; apply orb_true_r.
Qed.

(** *** The loader: the other two failure clauses *)

(** X1: when [open] raises [FileNotFoundError], [load_json] never calls
    [json.load]; it returns [None] and its one record is the ERROR record
    "Файл не найден: " followed by the path, whatever the text of the
    exception. *)
Theorem load_json_not_found (w : World) (p text : string) :
  io_open w p = Raise (FileNotFoundError text) ->
  load_json w p =
    (Return PyNone,
     [EvOpen p; EvLog (mkLog ERROR ("Файл не найден: " ++ p) [])]) /\
  parses_of (snd (load_json w p)) = [] /\
  contains ("Файл не найден: " ++ p) p.
Proof.
  intros Ho.
  assert (Hrun : load_json w p =
    (Return PyNone,
     [EvOpen p; EvLog (mkLog ERROR ("Файл не найден: " ++ p) [])])).
  { py_unfold. now rewrite Ho. }
  rewrite Hrun. repeat split. apply contains_end.
Qed.

Lemma load_json_not_found_witness :
  load_json Fixtures.no_data_world "data.json" =
    (Return PyNone,
     [EvOpen "data.json"; EvLog (mkLog ERROR "Файл не найден: data.json" [])]).
Proof.
  apply (load_json_not_found Fixtures.no_data_world "data.json"
           "[Errno 2] No such file or directory: 'data.json'").
  reflexivity.
Defined.

(** X2: when [open] or [json.load] raises an exception that is neither
    [FileNotFoundError] nor [JSONDecodeError], [load_json] returns [None] and
    its one record is the ERROR record "Неизвестная ошибка при чтении
    файла", with the path and then the text of the exception. *)
Theorem load_json_unknown_error (w : World) (p : string) (e : PyException) :
  read_json w p = Raise e ->
  is_FileNotFoundError e = false ->
  is_JSONDecodeError e = false ->
  fst (load_json w p) = Return PyNone /\
  log_of (snd (load_json w p)) =
    [mkLog ERROR
       ("Неизвестная ошибка при чтении файла " ++ p ++ ": " ++ str_exc e) []] /\
  contains ("Неизвестная ошибка при чтении файла " ++ p ++ ": " ++ str_exc e) p /\
  contains ("Неизвестная ошибка при чтении файла " ++ p ++ ": " ++ str_exc e)
    (str_exc e).
Proof.
  unfold read_json. intros Hr Hnf Hjd.
  assert (Hrun : fst (load_json w p) = Return PyNone /\
    log_of (snd (load_json w p)) =
      [mkLog ERROR
         ("Неизвестная ошибка при чтении файла " ++ p ++ ": " ++ str_exc e) []]).
  { py_unfold. destruct (io_open w p) as [f|e'].
    - rewrite Hr. destruct e; try discriminate; now split.
    - injection Hr as ->. destruct e; try discriminate; now split. }
  destruct Hrun as (Hv & Hl). repeat split; [exact Hv | exact Hl | |].
  - apply contains_here.
  - do 2 apply contains_tail. apply contains_end.
Qed.

Lemma load_json_unknown_error_witness :
  fst (load_json Fixtures.unreadable_world "schema.json") = Return PyNone /\
  log_of (snd (load_json Fixtures.unreadable_world "schema.json")) =
    [mkLog ERROR
       "Неизвестная ошибка при чтении файла schema.json: [Errno 13] Permission denied: 'schema.json'"
       []].
Proof.
  destruct (load_json_unknown_error Fixtures.unreadable_world "schema.json"
              (OtherException "[Errno 13] Permission denied: 'schema.json'"))
    as (Hv & Hl & _).
  - reflexivity.
  - reflexivity.
  - reflexivity.
  - split; [exact Hv | exact Hl].
Defined.

(** X3: the one record of a call of [load_json] tells how the call went,
    which the returned value does not: the record is of level ERROR exactly
    when [open] or [json.load] raised, and then the start of its text tells
    the clause that caught the exception, "Файл не найден" for
    [FileNotFoundError], "Ошибка разбора JSON" for [JSONDecodeError] and
    "Неизвестная ошибка при чтении файла" for everything else. *)
Theorem load_json_record_tells_outcome (w : World) (p : string) :
  exists r,
    log_of (snd (load_json w p)) = [r] /\
    is_ERROR r =
      match read_json w p with
      | Return _ => false
      | Raise _ => true
      end /\
    (forall e, read_json w p = Raise e ->
       prefix "Файл не найден: " (msg r) = is_FileNotFoundError e /\
       prefix "Ошибка разбора JSON в файле " (msg r) = is_JSONDecodeError e /\
       prefix "Неизвестная ошибка при чтении файла " (msg r) =
         negb (is_FileNotFoundError e || is_JSONDecodeError e)).
Proof.
  unfold read_json. py_unfold.
  destruct (io_open w p) as [f|e].
  - destruct (json_load_impl w f) as [v|e].
    + eexists. split; [reflexivity|]. split; [reflexivity|]. discriminate.
    + destruct e; eexists; (split; [reflexivity|]); (split; [reflexivity|]);
        intros e' [= <-]; cbn [msg]; repeat split;
        first [apply prefix_app | reflexivity].
  - destruct e; eexists; (split; [reflexivity|]); (split; [reflexivity|]);
      intros e' [= <-]; cbn [msg]; repeat split;
      first [apply prefix_app | reflexivity].
Qed.

(** X4: [load_json] hands to [json.load] exactly the file it opened, once,
    and nothing when [open] raised; it prints nothing and never calls the
    validator. *)
Theorem load_json_parses_what_it_opened (w : World) (p : string) :
  (forall f, io_open w p = Return f ->
     parses_of (snd (load_json w p)) = [f]) /\
  (forall e, io_open w p = Raise e ->
     parses_of (snd (load_json w p)) = []) /\
  console_of (snd (load_json w p)) = [] /\
  validator_calls (snd (load_json w p)) = [].
Proof.
  destruct (load_json_runs w p) as [f v Ho Hp | e m Ho _ | f e m Ho Hp _];
    rewrite Ho; cbn; repeat split; intros ? H; now inversion H.
Qed.

Lemma load_json_parses_what_it_opened_witness :
  parses_of (snd (load_json Fixtures.trailing_comma_world "data.json")) = ["[1,]"] /\
  parses_of (snd (load_json Fixtures.unreadable_world "data.json")) = [].
Proof.
  split.
  - apply (proj1 (load_json_parses_what_it_opened
                    Fixtures.trailing_comma_world "data.json")).
    reflexivity.
  - apply (proj1 (proj2 (load_json_parses_what_it_opened
                           Fixtures.unreadable_world "data.json"))
             (OtherException "[Errno 21] Is a directory: 'data.json'")).
    reflexivity.
Defined.

(** *** The validator *)

(** X5: [validate_data] returns [True] exactly when [jsonschema.validate]
    returned, and [False] exactly when it raised, whatever it raised. *)
Theorem validate_data_true_iff_accepted (w : World) (data schema : pyval) :
  (fst (validate_data w data schema) = Return true <->
   validate_impl w data schema = Return tt) /\
  (fst (validate_data w data schema) = Return false <->
   exists e, validate_impl w data schema = Raise e).
Proof.
  destruct (validate_data_shape w data schema) as (r & -> & _).
  unfold accepted. cbn [fst].
  destruct (validate_impl w data schema) as [[]|e]; split; split;
    try (intros [e' H]); try intros H; try discriminate; eauto.
Qed.

(** X6: whatever the verdict, [validate_data] calls the validator exactly
    once, with the data as instance and the schema as schema, and writes
    exactly one record, one of its own three kinds, of level ERROR exactly
    when the validator raised; it opens no file and prints nothing. *)
Theorem validate_data_effects (w : World) (data schema : pyval) :
  validator_calls (snd (validate_data w data schema)) = [(data, schema)] /\
  console_of (snd (validate_data w data schema)) = [] /\
  opens_of (snd (validate_data w data schema)) = [] /\
  exists r,
    log_of (snd (validate_data w data schema)) = [r] /\
    validator_record r = true /\
    is_ERROR r = negb (accepted w data schema).
Proof.
  destruct (validate_data_shape w data schema) as (r & -> & Hk & Hl).
  cbn. repeat split. exists r. now repeat split.
Qed.

(** *** The orchestrator *)

(** One call of [load_json], summed up. *)
Lemma load_json_summary (w : World) (p : string) :
  exists v t r,
    load_json w p = (Return v, t) /\
    log_of t = [r] /\ console_of t = [] /\ validator_calls t = [] /\
    validator_record r = false /\
    match read_json w p with
    | Return v' => v = v' /\ is_ERROR r = false
    | Raise _ => v = PyNone /\ is_ERROR r = true
    end.
Proof.
  unfold read_json.
  destruct (load_json_runs w p) as [f v Ho Hp | e m Ho Hm | f e m Ho Hp Hm];
    rewrite Ho; try rewrite Hp; do 3 eexists;
    (split; [reflexivity|]); cbn; repeat split; assumption.
Qed.

(** No record of [load_json] is the record [main] writes when it gives up. *)
Lemma load_json_record_not_final (w : World) (p : string) :
  ~ In not_loaded_record (log_of (snd (load_json w p))).
Proof.
  py_unfold.
  destruct (io_open w p) as [f|e].
  - destruct (json_load_impl w f) as [v|e]; [|destruct e];
      cbn; intros [H | []]; discriminate H.
  - destruct e; cbn; intros [H | []]; discriminate H.
Qed.

(** X7: every run of [main] writes exactly three log records: the record of
    the load of "data.json", the record of the load of "schema.json" and
    then either the record that data or schema were not loaded or the one
    record of the validator, never both. *)
Theorem main_writes_three_records (w : World) :
  exists r1 r2 r3,
    log_of (snd (main w)) = [r1; r2; r3] /\
    log_of (snd (load_json w "data.json")) = [r1] /\
    log_of (snd (load_json w "schema.json")) = [r2] /\
    (r3 = not_loaded_record /\ validator_record r3 = false \/
     r3 <> not_loaded_record /\ validator_record r3 = true).
Proof.
  destruct (load_json_summary w "data.json") as (d & t1 & r1 & H1 & L1 & _).
  destruct (load_json_summary w "schema.json") as (s & t2 & r2 & H2 & L2 & _).
  exists r1, r2.
  rewrite (main_run w d s t1 t2 H1 H2), H1, H2. cbn [snd].
  destruct (is_None d || is_None s).
  - exists not_loaded_record. cbn [snd].
    rewrite !log_of_app, L1, L2. repeat split. now left.
  - destruct (validate_data_shape w d s) as (r & -> & Hk & _).
    exists r. cbn [snd]. rewrite !log_of_app, L1, L2. repeat split.
    right. split; [|exact Hk]. intros ->. discriminate Hk.
Qed.

(** X8: when both files open and parse to documents other than [None],
    [main] calls the validator exactly once, with the document of
    "data.json" as instance and the document of "schema.json" as schema, and
    prints exactly one line: the success line when the validator returned,
    the failure line when it raised. *)
Theorem main_validates_loaded_documents (w : World) (d s : pyval) :
  read_json w "data.json" = Return d ->
  read_json w "schema.json" = Return s ->
  is_None d = false ->
  is_None s = false ->
  validator_calls (snd (main w)) = [(d, s)] /\
  console_of (snd (main w)) = [verdict_line (accepted w d s)].
Proof.
  intros Rd Rs Nd Ns.
  destruct (load_json_summary w "data.json")
    as (d' & t1 & r1 & H1 & _ & C1 & V1 & _ & S1).
  destruct (load_json_summary w "schema.json")
    as (s' & t2 & r2 & H2 & _ & C2 & V2 & _ & S2).
  rewrite Rd in S1. rewrite Rs in S2.
  destruct S1 as (-> & _). destruct S2 as (-> & _).
  rewrite (main_run w d s t1 t2 H1 H2), Nd, Ns. cbn [orb].
  destruct (validate_data_shape w d s) as (r & -> & _).
  cbn [snd]. rewrite !validator_calls_app, !console_of_app, C1, C2, V1, V2.
  now split.
Qed.

Lemma main_validates_loaded_documents_witness :
  validator_calls (snd (main Fixtures.invalid_world)) =
    [(Fixtures.items_doc, Fixtures.items_schema)] /\
  console_of (snd (main Fixtures.invalid_world)) =
    ["Данные НЕ соответствуют схеме, подробности см. в лог-файле"].
Proof.
  apply (main_validates_loaded_documents Fixtures.invalid_world
           Fixtures.items_doc Fixtures.items_schema); reflexivity.
Defined.

(** X9: a run of [main] goes one of two ways.  Either a load returned
    [None]: then nothing is printed, the validator is not called and the last
    record says that data or schema were not loaded.  Or no load returned
    [None]: then the validator is called exactly once, exactly one line is
    printed, and that record is not in the log. *)
Theorem main_prints_iff_validated (w : World) :
  ((fst (load_json w "data.json") = Return PyNone \/
    fst (load_json w "schema.json") = Return PyNone) /\
   console_of (snd (main w)) = [] /\
   validator_calls (snd (main w)) = [] /\
   last (log_of (snd (main w))) (mkLog INFO "" []) = not_loaded_record) \/
  (exists d s,
     fst (load_json w "data.json") = Return d /\ is_None d = false /\
     fst (load_json w "schema.json") = Return s /\ is_None s = false /\
     validator_calls (snd (main w)) = [(d, s)] /\
     console_of (snd (main w)) = [verdict_line (accepted w d s)] /\
     ~ In not_loaded_record (log_of (snd (main w)))).
Proof.
  destruct (load_json_summary w "data.json")
    as (d & t1 & r1 & H1 & L1 & C1 & V1 & K1 & _).
  destruct (load_json_summary w "schema.json")
    as (s & t2 & r2 & H2 & L2 & C2 & V2 & K2 & _).
  rewrite (main_run w d s t1 t2 H1 H2), H1, H2. cbn [fst].
  destruct (is_None d || is_None s) eqn:Hnone.
  - left. cbn [snd].
    rewrite !console_of_app, !validator_calls_app, !log_of_app, C1, C2, V1, V2, L1, L2.
    repeat split.
    apply orb_true_iff in Hnone.
    destruct Hnone as [Hd | Hs]; [left; now destruct d | right; now destruct s].
  - right. apply orb_false_iff in Hnone. destruct Hnone as (Nd & Ns).
    destruct (validate_data_shape w d s) as (r & -> & Hk & _).
    exists d, s. cbn [snd].
    rewrite !console_of_app, !validator_calls_app, !log_of_app, C1, C2, V1, V2, L1, L2.
    repeat split; try assumption.
    pose proof (load_json_record_not_final w "data.json") as F1.
    pose proof (load_json_record_not_final w "schema.json") as F2.
    rewrite H1 in F1. rewrite H2 in F2. cbn [snd] in F1, F2.
    rewrite L1 in F1. rewrite L2 in F2.
    cbn in *. intros [E | [E | [E | []]]]; [tauto | tauto |].
    subst r. discriminate Hk.
Qed.

(** X10: [main] prints the success line exactly when the run leaves no
    record of level ERROR in the log. *)
Theorem main_success_iff_clean_log (w : World) :
  console_of (snd (main w)) = ["Данные валидны по схеме"] <->
  existsb is_ERROR (log_of (snd (main w))) = false.
Proof.
  destruct (load_json_summary w "data.json")
    as (d & t1 & r1 & H1 & L1 & C1 & _ & _ & S1).
  destruct (load_json_summary w "schema.json")
    as (s & t2 & r2 & H2 & L2 & C2 & _ & _ & S2).
  rewrite (main_run w d s t1 t2 H1 H2).
  destruct (is_None d || is_None s) eqn:Hnone.
  - cbn [snd]. rewrite !console_of_app, !log_of_app, C1, C2, L1, L2. cbn.
    rewrite !orb_true_r. split; discriminate.
  - apply orb_false_iff in Hnone. destruct Hnone as (Nd & Ns).
    assert (E1 : is_ERROR r1 = false).
    { destruct (read_json w "data.json"); destruct S1 as (-> & E); [exact E|].
      discriminate Nd. }
    assert (E2 : is_ERROR r2 = false).
    { destruct (read_json w "schema.json"); destruct S2 as (-> & E); [exact E|].
      discriminate Ns. }
    destruct (validate_data_shape w d s) as (r & -> & _ & Hl).
    cbn [snd]. rewrite !console_of_app, !log_of_app, C1, C2, L1, L2. cbn.
    rewrite E1, E2, Hl. cbn.
    destruct (accepted w d s); cbn; split; intros H; try reflexivity;
      discriminate H.
Qed.

Example run_ascii_console :
  run_script Fixtures.ascii_console_world =
    (1%Z,
     [EvOpen "data.json"; EvJsonLoad "{}";
      EvLog (mkLog INFO "Файл успешно прочитан: data.json" []);
      EvOpen "schema.json"; EvJsonLoad "{}";
      EvLog (mkLog INFO "Файл успешно прочитан: schema.json" []);
      EvValidate (PyDict []) (PyDict []);
      EvLog (mkLog INFO "Валидация прошла успешно" []);
      EvPrint "Данные валидны по схеме"]).
Proof. reflexivity. Qed.
